(** * examples/h2o/exec_model.py

    The script is fourteen lines of straight-line Python: it imports the h2o
    package, starts the backend, loads one model artifact, builds a one-row
    frame by hand, names its columns, asks the model for a prediction and
    prints it.  Everything it does is a call into code that lives outside the
    repository, so the development has three layers:

    - a small model of the Python that the script is written in: programs
      that call out, write to standard output and may install exception
      handlers, with a trace semantics over an arbitrary (relational,
      possibly nondeterministic) h2o backend;
    - the script itself, statement by statement;
    - the properties of the script, proved for every backend, and a small
      executable backend on which each of them is run. *)

From Stdlib Require Import ZArith List String Bool Lia PrimFloat DecimalString.
Import ListNotations.

Set Implicit Arguments.
Local Open Scope string_scope.
Local Open Scope list_scope.

(** ** Python values that occur as literals in the script *)

(** Python numbers: [7] is an [int], [0.27] is a [float], that is the binary64
    value nearest to the decimal literal.  Rocq reads a float literal the same
    way, and says so for each literal that is not a binary64 value itself. *)
Inductive pynum : Type :=
| PyInt (z : Z)
| PyFloat (x : float).

#[local] Set Warnings "-inexact-float".

(** Line 7: [my_wine =[7,0.27,0.36,20.7,0.045,45,170,1.001,3,0.45,8.8]]. *)
Definition my_wine : list pynum :=
  [PyInt 7; PyFloat 0.27; PyFloat 0.36; PyFloat 20.7; PyFloat 0.045; PyInt 45;
   PyInt 170; PyFloat 1.001; PyInt 3; PyFloat 0.45; PyFloat 8.8].

(** Line 4: the argument of [h2o.load_model]. *)
Definition model_path : string :=
  "mlruns/0/models/m-935ff251a94d41899ecbee172e66c5b8/artifacts/model.h2o/DRF_model_python_1751837466102_2".

(** Lines 10-12: the list assigned to [wine_frame.columns]. *)
Definition column_names : list string :=
  ["fixed acidity"; "volatile acidity"; "citric acid"; "residual sugar";
   "chlorides"; "free sulfur dioxide"; "total sulfur dioxide";
   "density"; "pH"; "sulphates"; "alcohol"].

(** The line feed that [print] writes after its argument. *)
Definition newline : string := String (Ascii.ascii_of_nat 10) EmptyString.

(** ** Programs over the h2o package *)

Section Python.

(** What the script cannot see into: the state of everything outside it
    (the h2o backend, the file system, the interpreter's environment), the
    objects h2o hands out, and the exceptions it raises. *)
Variables (World Model Frame Exn : Type).

(** The calls the script makes into foreign code, one constructor per
    call site. *)
Inductive call : Type :=
| import (name : string)                              (* import h2o *)
| h2o_init                                            (* h2o.init() *)
| h2o_load_model (path : string)                      (* h2o.load_model(path) *)
| h2o_H2OFrame (python_obj : list (list pynum))       (* h2o.H2OFrame(python_obj) *)
| set_columns (frame : Frame) (names : list string)   (* frame.columns = names *)
| predict (model : Model) (test_data : Frame)         (* model.predict(test_data) *)
| str (frame : Frame).                                (* str(frame), inside print *)

(** What each call returns when it returns. *)
Definition result (c : call) : Type :=
  match c with
  | import _ => unit
  | h2o_init => unit
  | h2o_load_model _ => Model
  | h2o_H2OFrame _ => Frame
  | set_columns _ _ => unit
  | predict _ _ => Frame
  | str _ => string
  end.

(** A call either returns a value or raises; both leave a new world. *)
Inductive reply (X : Type) : Type :=
| Returned (w : World) (x : X)
| Raised (w : World) (e : Exn).

Arguments Returned {X} w x.
Arguments Raised {X} w e.

(** The h2o package as the script meets it: for each call and each world,
    the replies that may come back.  A relation, since nothing in the script
    makes the package deterministic or total. *)
Definition library : Type := forall c : call, World -> reply (result c) -> Prop.

(** The same for a package that computes its reply. *)
Definition implementation : Type := forall c : call, World -> reply (result c).

Definition graph (impl : implementation) : library :=
  fun c w r => r = impl c w.

(** A package that always replies; a package that never replies in two
    ways. *)
Definition total (lib : library) : Prop :=
  forall c w, exists r, lib c w r.

Definition deterministic (lib : library) : Prop :=
  forall c w r1 r2, lib c w r1 -> lib c w r2 -> r1 = r2.

(** *** What the specification takes from h2o *)

(** Modelled from the spec: h2o's side of the length invariant of the Input
    Row ("the script does not enforce this -- it relies on the external
    library to fail if violated"); the h2o package is not under src/.  With
    [ncol] reading a frame's number of columns: a frame built from one row
    has as many columns as the row has values, and one column when the row
    has none; and assigning column names returns only for as many names as
    the frame has columns. *)
Definition arity_checked (lib : library) (ncol : World -> Frame -> nat) : Prop :=
  (forall row w w' f,
      lib (h2o_H2OFrame [row]) w (Returned w' f) ->
      ncol w' f = Nat.max 1 (List.length row)) /\
  (forall f names w w',
      lib (set_columns f names) w (Returned w' tt) ->
      List.length names = ncol w f).

(** What can be read off a world: the bytes at a path, the predictor behind
    a model handle, the table (names and values) behind a frame handle; and
    the functions the package computes with: from bytes to predictor, from
    rows to table, renaming, scoring and rendering. *)
Record reading (Bytes Predictor Table : Type) : Type :=
  { file : World -> string -> Bytes;
    loaded : World -> Model -> Predictor;
    table : World -> Frame -> Table;
    parse : Bytes -> Predictor;
    build : list (list pynum) -> Table;
    rename : Table -> list string -> Table;
    apply_model : Predictor -> Table -> Table;
    render : Table -> string }.

(** Modelled from the spec: the h2o operations as functions of their inputs
    ("Prediction Result = Model(Input Row)", "determinism assumed from the
    underlying model"); the h2o package is not under src/.  Importing and
    starting leave the files alone; a loaded model is the predictor parsed
    from the bytes at the path; a new frame holds the table built from the
    rows given; assigning names renames that table; neither touches the
    loaded models; a prediction is the predictor applied to the frame's
    table; and [str] renders the table. *)
Definition functional_package (lib : library)
  (Bytes Predictor Table : Type) (r : reading Bytes Predictor Table) : Prop :=
  (forall name w w',
      lib (import name) w (Returned w' tt) ->
      forall path, file r w' path = file r w path) /\
  (forall w w',
      lib h2o_init w (Returned w' tt) ->
      forall path, file r w' path = file r w path) /\
  (forall path w w' m,
      lib (h2o_load_model path) w (Returned w' m) ->
      loaded r w' m = parse r (file r w path)) /\
  (forall python_obj w w' f,
      lib (h2o_H2OFrame python_obj) w (Returned w' f) ->
      table r w' f = build r python_obj /\
      forall m, loaded r w' m = loaded r w m) /\
  (forall f names w w',
      lib (set_columns f names) w (Returned w' tt) ->
      table r w' f = rename r (table r w f) names /\
      forall m, loaded r w' m = loaded r w m) /\
  (forall m f w w' p,
      lib (predict m f) w (Returned w' p) ->
      table r w' p = apply_model r (loaded r w m) (table r w f)) /\
  (forall p w w' text,
      lib (str p) w (Returned w' text) ->
      text = render r (table r w p)).

(** Programs: return, call out, write to standard output, or run a body
    under an exception handler ([try: body except e: handler]). *)
Inductive prog (A : Type) : Type :=
| Ret (a : A)
| Call (c : call) (k : result c -> prog A)
| Stdout (text : string) (k : prog A)
| Try (B : Type) (body : prog B) (handler : Exn -> prog B) (k : B -> prog A).

Arguments Ret {A} a.
Arguments Call {A} c k.
Arguments Stdout {A} text k.
Arguments Try {A B} body handler k.

Fixpoint bind {A B : Type} (p : prog A) (f : A -> prog B) : prog B :=
  match p with
  | Ret a => f a
  | Call c k => Call c (fun x => bind (k x) f)
  | Stdout text k => Stdout text (bind k f)
  | Try body handler k => Try body handler (fun b => bind (k b) f)
  end.

(** A program with no [try] anywhere. *)
Fixpoint handler_free {A : Type} (p : prog A) : Prop :=
  match p with
  | Ret _ => True
  | Call _ k => forall x, handler_free (k x)
  | Stdout _ k => handler_free k
  | Try _ _ _ => False
  end.

(** *** The process *)

(** [backend] is the world the calls act on; [stdout] is what the script's
    own [print] has put on standard output.  Whatever h2o itself shows on
    the terminal (its start-up banner, progress bars) is h2o's doing and part
    of the world, not of this field. *)
Record state : Type := { backend : World; stdout : string }.

Definition with_backend (s : state) (w : World) : state :=
  {| backend := w; stdout := stdout s |}.

Definition write (s : state) (text : string) : state :=
  {| backend := backend s; stdout := stdout s ++ text |}.

(** How a run ends: normally, or with an exception nobody caught. *)
Inductive outcome (A : Type) : Type :=
| Done (s : state) (a : A)
| Uncaught (s : state) (e : Exn).

Arguments Done {A} s a.
Arguments Uncaught {A} s e.

(** The interpreter's exit status: 0 after the last statement, 1 after the
    traceback of an uncaught exception. *)
Definition exit_status {A : Type} (o : outcome A) : Z :=
  match o with
  | Done _ _ => 0
  | Uncaught _ _ => 1
  end.

Definition final_state {A : Type} (o : outcome A) : state :=
  match o with
  | Done s _ => s
  | Uncaught s _ => s
  end.

(** *** Traces *)

(** A returned value, as the dynamically typed object it is. *)
Inductive pyobj : Type :=
| PyNone
| PyModel (m : Model)
| PyFrame (f : Frame)
| PyStr (s : string).

Definition to_obj (c : call) : result c -> pyobj :=
  match c with
  | import _ => fun _ => PyNone
  | h2o_init => fun _ => PyNone
  | h2o_load_model _ => PyModel
  | h2o_H2OFrame _ => PyFrame
  | set_columns _ _ => fun _ => PyNone
  | predict _ _ => PyFrame
  | str _ => PyStr
  end.

Inductive response : Type :=
| Ok (w : World) (v : pyobj)
| Exc (w : World) (e : Exn).

(** One step of a run, with the state it was taken in. *)
Inductive entry : Type :=
| Called (s : state) (c : call) (r : response)
| Wrote (s : state) (text : string).

Definition trace : Type := list entry.

(** *** Executions against a package *)

Section Semantics.

Variable lib : library.

(** [exec p s t o]: started in [s], [p] can make the steps [t] and end as
    [o].  An exception raised by a call ends the run of the enclosing
    body; a [try] passes it to its handler. *)
Fixpoint exec {A : Type} (p : prog A) (s : state) (t : trace) (o : outcome A)
  : Prop :=
  match p with
  | Ret a => t = [] /\ o = Done s a
  | Call c k =>
      exists r : reply (result c),
        lib c (backend s) r /\
        match r with
        | Returned w x =>
            exists t', t = Called s c (Ok w (to_obj c x)) :: t' /\
                       exec (k x) (with_backend s w) t' o
        | Raised w e =>
            t = [Called s c (Exc w e)] /\ o = Uncaught (with_backend s w) e
        end
  | Stdout text k =>
      exists t', t = Wrote s text :: t' /\ exec k (write s text) t' o
  | Try body handler k =>
      exists tb ob,
        exec body s tb ob /\
        match ob with
        | Done s1 b => exists t', t = tb ++ t' /\ exec (k b) s1 t' o
        | Uncaught s1 e =>
            exists th oh,
              exec (handler e) s1 th oh /\
              match oh with
              | Done s2 b => exists t', t = tb ++ th ++ t' /\ exec (k b) s2 t' o
              | Uncaught s2 e' => t = tb ++ th /\ o = Uncaught s2 e'
              end
        end
  end.

End Semantics.

(** The same, computed, for a package that computes its replies. *)
Section Interpreter.

Variable impl : implementation.

Fixpoint run {A : Type} (p : prog A) (s : state) : trace * outcome A :=
  match p with
  | Ret a => ([], Done s a)
  | Call c k =>
      match impl c (backend s) with
      | Returned w x =>
          let (t', o) := run (k x) (with_backend s w) in
          (Called s c (Ok w (to_obj c x)) :: t', o)
      | Raised w e =>
          ([Called s c (Exc w e)], Uncaught (with_backend s w) e)
      end
  | Stdout text k =>
      let (t', o) := run k (write s text) in (Wrote s text :: t', o)
  | Try body handler k =>
      match run body s with
      | (tb, Done s1 b) =>
          let (t', o) := run (k b) s1 in (tb ++ t', o)
      | (tb, Uncaught s1 e) =>
          match run (handler e) s1 with
          | (th, Done s2 b) =>
              let (t', o) := run (k b) s2 in (tb ++ th ++ t', o)
          | (th, Uncaught s2 e') => (tb ++ th, Uncaught s2 e')
          end
      end
  end.

End Interpreter.

(** ** The script *)

Declare Scope py_scope.
Notation "x <- c ;; k" := (Call c (fun x => k))
  (at level 61, c at next level, right associativity) : py_scope.
Local Open Scope py_scope.

(** [print(o)]: the text is [str(o)], which for a frame is h2o's code, and a
    line feed ends it. *)
Definition print (o : Frame) : prog unit :=
  text <- str o ;;
  Stdout (text ++ newline) (Ret tt).

(** Lines 8-12, the input builder, as a function of the row of line 7: the
    row is wrapped in a list (one row) and handed to [H2OFrame], then the
    eleven names are assigned to that same frame object. *)
Definition input_builder (row : list pynum) : prog Frame :=
  wine_frame <- h2o_H2OFrame [row] ;;
  _ <- set_columns wine_frame column_names ;;
  Ret wine_frame.

(** The module body, top to bottom. *)
Definition exec_model : prog unit :=
  _ <- import "h2o" ;;
  _ <- h2o_init ;;
  model <- h2o_load_model
    "mlruns/0/models/m-935ff251a94d41899ecbee172e66c5b8/artifacts/model.h2o/DRF_model_python_1751837466102_2" ;;
  wine_frame <- h2o_H2OFrame [my_wine] ;;
  _ <- set_columns wine_frame
         ["fixed acidity"; "volatile acidity"; "citric acid"; "residual sugar";
          "chlorides"; "free sulfur dioxide"; "total sulfur dioxide";
          "density"; "pH"; "sulphates"; "alcohol"] ;;
  predictions <- predict model wine_frame ;;
  print predictions.

(** *** Reading traces *)

(** The steps of the run in which every call returns. *)
Definition full_run (s : state)
  (w1 w2 w3 : World) (model : Model) (w4 : World) (wine_frame : Frame)
  (w5 w6 : World) (predictions : Frame) (w7 : World) (text : string) : trace :=
  [ Called s (import "h2o") (Ok w1 PyNone);
    Called (with_backend s w1) h2o_init (Ok w2 PyNone);
    Called (with_backend s w2) (h2o_load_model model_path) (Ok w3 (PyModel model));
    Called (with_backend s w3) (h2o_H2OFrame [my_wine]) (Ok w4 (PyFrame wine_frame));
    Called (with_backend s w4) (set_columns wine_frame column_names) (Ok w5 PyNone);
    Called (with_backend s w5) (predict model wine_frame) (Ok w6 (PyFrame predictions));
    Called (with_backend s w6) (str predictions) (Ok w7 (PyStr text));
    Wrote (with_backend s w7) (text ++ newline) ].


(** The call sites, for telling steps apart without their arguments. *)
Inductive site : Type :=
| at_import | at_init | at_load_model | at_H2OFrame
| at_set_columns | at_predict | at_str | at_stdout.

Definition site_of_call (c : call) : site :=
  match c with
  | import _ => at_import
  | h2o_init => at_init
  | h2o_load_model _ => at_load_model
  | h2o_H2OFrame _ => at_H2OFrame
  | set_columns _ _ => at_set_columns
  | predict _ _ => at_predict
  | str _ => at_str
  end.

Definition site_of (x : entry) : site :=
  match x with
  | Called _ c _ => site_of_call c
  | Wrote _ _ => at_stdout
  end.

Definition site_eqb (a b : site) : bool :=
  match a, b with
  | at_import, at_import | at_init, at_init | at_load_model, at_load_model
  | at_H2OFrame, at_H2OFrame | at_set_columns, at_set_columns
  | at_predict, at_predict | at_str, at_str | at_stdout, at_stdout => true
  | _, _ => false
  end.

(** The one order in which the script reaches its call sites. *)
Definition pipeline : list site :=
  [at_import; at_init; at_load_model; at_H2OFrame; at_set_columns;
   at_predict; at_str; at_stdout].

(** The place of a call site in that order, from 0. *)
Definition rank (a : site) : nat :=
  match a with
  | at_import => 0
  | at_init => 1
  | at_load_model => 2
  | at_H2OFrame => 3
  | at_set_columns => 4
  | at_predict => 5
  | at_str => 6
  | at_stdout => 7
  end.

(** The exception a step ended with, if it did. *)
Definition raised (x : entry) : option Exn :=
  match x with
  | Called _ _ (Exc _ e) => Some e
  | _ => None
  end.

(** What the script asked for in a step, and what it was told. *)
Inductive request : Type :=
| Asked (c : call)
| Printed (text : string).

Definition request_of (x : entry) : request :=
  match x with
  | Called _ c _ => Asked c
  | Wrote _ text => Printed text
  end.


(** The state a step leaves behind. *)
Definition after (x : entry) : state :=
  match x with
  | Called s _ (Ok w _) => with_backend s w
  | Called s _ (Exc w _) => with_backend s w
  | Wrote s text => write s text
  end.

(** What came back from a step, the world apart. *)
Definition answer_of (x : entry) : option (pyobj + Exn) :=
  match x with
  | Called _ _ (Ok _ v) => Some (inl v)
  | Called _ _ (Exc _ e) => Some (inr e)
  | Wrote _ _ => None
  end.


(** How often a call site occurs in a trace. *)
Definition occurrences (a : site) (t : trace) : nat :=
  List.length (filter (fun x => site_eqb a (site_of x)) t).

End Python.

Arguments import {Model Frame} name.
Arguments h2o_init {Model Frame}.
Arguments h2o_load_model {Model Frame} path.
Arguments h2o_H2OFrame {Model Frame} python_obj.
Arguments set_columns {Model Frame} frame names.
Arguments predict {Model Frame} model test_data.
Arguments str {Model Frame} frame.
Arguments Returned {World Exn X} w x.
Arguments Raised {World Exn X} w e.
Arguments Ret {Model Frame Exn A} a.
Arguments Call {Model Frame Exn A} c k.
Arguments Stdout {Model Frame Exn A} text k.
Arguments Try {Model Frame Exn A B} body handler k.
Arguments Done {World Exn A} s a.
Arguments Uncaught {World Exn A} s e.
Arguments PyNone {Model Frame}.
Arguments PyModel {Model Frame} m.
Arguments PyFrame {Model Frame} f.
Arguments PyStr {Model Frame} s.
Arguments Ok {World Model Frame Exn} w v.
Arguments Exc {World Model Frame Exn} w e.
Arguments Called {World Model Frame Exn} s c r.
Arguments Wrote {World Model Frame Exn} s text.
Arguments exec_model {Model Frame Exn}.
Arguments full_run {World Model Frame Exn}.
Arguments input_builder {Model Frame Exn} row.
Arguments print {Model Frame Exn} o.
Arguments Asked {Model Frame} c.
Arguments Printed {Model Frame} text.

(** ** An executable h2o *)

(** A stand-in for the package, small enough to run: frames live in a store
    and are handed out by key, so that assigning column names changes the one
    frame every holder of the key sees; a model artifact is the prediction
    function it was trained to; exceptions are the names of their classes.
    It follows h2o where the script depends on it: a list of lists is a list of
    rows, of which the empty ones are dropped; a frame has at least one
    column; new frames get the names C1, C2, ...; assigning names checks
    their number; loading needs the artifact to exist; a model predicts only
    on a frame that has some column it was trained on; and nothing works
    before [init] succeeded.  Its [str] is a sketch: the names and the shape
    line, not the values. *)
Module Ref.

Record frame_data : Type :=
  { rows : list (list pynum); names : list string }.

Record model : Type :=
  { features : list string;            (* the columns it was trained on *)
    score : list pynum -> pynum }.     (* what it predicts for a row *)

Record world : Type :=
  { installed : bool;                                   (* can h2o be imported *)
    reachable : bool;                                   (* can a cluster be started *)
    connected : bool;                                   (* has init succeeded *)
    artifacts : list (string * model);                  (* the model files *)
    frames : list frame_data }.                         (* the frame store *)

Definition frame : Type := nat.
Definition exn : Type := string.

Definition connect (w : world) : world :=
  {| installed := installed w; reachable := reachable w; connected := true;
     artifacts := artifacts w; frames := frames w |}.

Definition with_frames (w : world) (fs : list frame_data) : world :=
  {| installed := installed w; reachable := reachable w;
     connected := connected w; artifacts := artifacts w; frames := fs |}.

Fixpoint find_artifact (path : string)
  (l : list (string * model)) : option model :=
  match l with
  | [] => None
  | (p, m) :: l' => if String.eqb p path then Some m else find_artifact path l'
  end.

Definition ncols (python_obj : list (list pynum)) : nat :=
  fold_right (fun row n => Nat.max (List.length row) n) 1 python_obj.

Definition blank (row : list pynum) : bool :=
  match row with
  | [] => true
  | _ :: _ => false
  end.

Definition data_rows (python_obj : list (list pynum)) : list (list pynum) :=
  filter (fun row => negb (blank row)) python_obj.

Definition known (name : string) (l : list string) : bool :=
  existsb (String.eqb name) l.

Definition plural (n : nat) (word : string) : string :=
  if Nat.eqb n 1 then word else (word ++ "s")%string.

Definition decimal (n : nat) : string :=
  DecimalString.NilEmpty.string_of_uint (Nat.to_uint n).

Definition default_names (n : nat) : list string :=
  map (fun i => "C" ++ decimal i)%string (seq 1 n).

Fixpoint set_nth {X : Type} (i : nat) (x : X) (l : list X) : list X :=
  match i, l with
  | _, [] => []
  | O, _ :: l' => x :: l'
  | S i', y :: l' => y :: set_nth i' x l'
  end.

Definition columns (w : world) (f : frame) : list string :=
  match nth_error (frames w) f with
  | Some d => names d
  | None => []
  end.

Definition ncol (w : world) (f : frame) : nat := List.length (columns w f).

Definition nrow (w : world) (f : frame) : nat :=
  match nth_error (frames w) f with
  | Some d => List.length (rows d)
  | None => 0
  end.

Definition show (d : frame_data) : string :=
  (String.concat "  " (names d) ++ newline
   ++ "[" ++ decimal (List.length (rows d)) ++ " "
   ++ plural (List.length (rows d)) "row" ++ " x "
   ++ decimal (List.length (names d)) ++ " "
   ++ plural (List.length (names d)) "column" ++ "]")%string.

Definition h2o : implementation world model frame exn :=
  fun c =>
    match c with
    | import name => fun w =>
        if (String.eqb name "h2o" && installed w)%bool
        then Returned w tt
        else Raised w "ModuleNotFoundError"
    | h2o_init => fun w =>
        if reachable w
        then Returned (connect w) tt
        else Raised w "H2OStartupError"
    | h2o_load_model path => fun w =>
        if connected w
        then match find_artifact path (artifacts w) with
             | Some m => Returned w m
             | None => Raised w "H2OResponseError"
             end
        else Raised w "H2OConnectionError"
    | h2o_H2OFrame python_obj => fun w =>
        if connected w
        then Returned
               (with_frames w
                  (frames w ++ [{| rows := data_rows python_obj;
                                   names := default_names (ncols python_obj) |}]))
               (List.length (frames w))
        else Raised w "H2OConnectionError"
    | set_columns f new_names => fun w =>
        match nth_error (frames w) f with
        | Some d =>
            if Nat.eqb (List.length new_names) (List.length (names d))
            then Returned
                   (with_frames w
                      (set_nth f {| rows := rows d; names := new_names |} (frames w)))
                   tt
            else Raised w "H2OValueError"
        | None => Raised w "H2OValueError"
        end
    | predict m f => fun w =>
        match nth_error (frames w) f with
        | Some d =>
            if existsb (fun name => known name (names d)) (features m)
            then Returned
                   (with_frames w
                      (frames w ++ [{| rows := map (fun row => [score m row]) (rows d);
                                       names := ["predict"] |}]))
                   (List.length (frames w))
            else Raised w "H2OResponseError"
        | None => Raised w "H2OValueError"
        end
    | str f => fun w =>
        match nth_error (frames w) f with
        | Some d => Returned w (show d)
        | None => Raised w "H2OValueError"
        end
    end.

(** A model trained on the eleven columns that gives every wine the
    score 6. *)
Definition wine_model : model :=
  {| features := column_names; score := fun _ => PyInt 6 |}.

(** A machine with h2o installed, a cluster that starts, and the artifact
    the script asks for. *)
Definition ready : world :=
  {| installed := true; reachable := true; connected := false;
     artifacts := [(model_path, wine_model)]; frames := [] |}.

(** The same machine without the artifact. *)
Definition no_artifact : world :=
  {| installed := true; reachable := true; connected := false;
     artifacts := []; frames := [] |}.

(** The same machine when no cluster can be started. *)
Definition unreachable : world :=
  {| installed := true; reachable := false; connected := false;
     artifacts := [(model_path, wine_model)]; frames := [] |}.

(** Another machine: a second artifact lies beside the first, as any
    difference in the surroundings of a run would show up in the world. *)
Definition elsewhere : world :=
  {| installed := true; reachable := true; connected := false;
     artifacts := [("mlruns/0/models/other",
                    {| features := ["alcohol"]; score := fun _ => PyInt 3 |});
                   (model_path, wine_model)];
     frames := [] |}.

Definition start (w : world) : state world :=
  {| backend := w; stdout := "" |}.

(** What is read off a machine: the model at a path, the model behind a
    handle (the handle itself), the frame under a key. *)
Definition observed
  : reading world model frame (option model) (option model) (option frame_data) :=
  {| file := fun w path => find_artifact path (artifacts w);
     loaded := fun _ m => Some m;
     table := fun w f => nth_error (frames w) f;
     parse := fun b => b;
     build := fun python_obj =>
       Some {| rows := data_rows python_obj;
               names := default_names (ncols python_obj) |};
     rename := fun t new_names =>
       match t with
       | Some d => Some {| rows := rows d; names := new_names |}
       | None => None
       end;
     apply_model := fun a t =>
       match a, t with
       | Some m, Some d =>
           Some {| rows := map (fun row => [score m row]) (rows d);
                   names := ["predict"] |}
       | _, _ => None
       end;
     render := fun t =>
       match t with
       | Some d => show d
       | None => ""
       end |}.

(** The whole script on a machine, from an empty standard output. *)
Definition whole_run (w : world)
  : trace world model frame exn * outcome world exn unit :=
  run h2o exec_model (start w).

(** The input builder alone, on a machine whose cluster is up. *)
Definition build (row : list pynum) (w : world)
  : trace world model frame exn * outcome world exn frame :=
  run h2o (input_builder row) (start (connect w)).

End Ref.

(** ** The semantics: general facts *)

Section Semantics_facts.

Variables (World Model Frame Exn : Type).

Abbreviation library := (library World Model Frame Exn).
Abbreviation implementation := (implementation World Model Frame Exn).
Abbreviation prog := (prog Model Frame Exn).
Abbreviation state := (state World).
Abbreviation trace := (trace World Model Frame Exn).
Abbreviation outcome := (outcome World Exn).
Abbreviation entry := (entry World Model Frame Exn).

(** The interpreter computes the one execution against a computed package. *)
Lemma run_exec (impl : implementation) (A : Type) (p : prog A) :
  forall (s : state) (t : trace) (o : outcome A),
    exec (graph impl) p s t o <-> run impl p s = (t, o).
Proof.
  induction p as [A a | A c k IH | A text k IH | A B body IHb handler IHh k IHk];
    intros s t o; simpl.
  - split.
    + intros [-> ->]; reflexivity.
    + intros H; inversion H; auto.
  - unfold graph. split.
    + intros [r [-> H]].
      destruct (impl c (backend s)) as [w x | w e]; simpl in H.
      * destruct H as [t' [-> H]]. apply IH in H. rewrite H. reflexivity.
      * destruct H as [-> ->]. reflexivity.
    + intros H. exists (impl c (backend s)). split; [reflexivity |].
      destruct (impl c (backend s)) as [w x | w e]; simpl.
      * destruct (run impl (k x) (with_backend s w)) as [t' o'] eqn:E.
        inversion H; subst. exists t'. split; [reflexivity |].
        apply IH. exact E.
      * inversion H; subst. auto.
  - split.
    + intros [t' [-> H]]. apply IH in H. rewrite H. reflexivity.
    + intros H. destruct (run impl k (write s text)) as [t' o'] eqn:E.
      inversion H; subst. exists t'. split; [reflexivity |]. apply IH. exact E.
  - split.
    + intros [tb [ob [Hb H]]]. apply IHb in Hb. rewrite Hb.
      destruct ob as [s1 b | s1 e].
      * destruct H as [t' [-> H]]. apply IHk in H. rewrite H. reflexivity.
      * destruct H as [th [oh [Hh H]]]. apply IHh in Hh. rewrite Hh.
        destruct oh as [s2 b | s2 e'].
        -- destruct H as [t' [-> H]]. apply IHk in H. rewrite H. reflexivity.
        -- destruct H as [-> ->]. reflexivity.
    + intros H. destruct (run impl body s) as [tb ob] eqn:Eb.
      exists tb, ob. split; [apply IHb; exact Eb |].
      destruct ob as [s1 b | s1 e].
      * destruct (run impl (k b) s1) as [t' o'] eqn:Ek.
        inversion H; subst. exists t'. split; [reflexivity |]. apply IHk. exact Ek.
      * destruct (run impl (handler e) s1) as [th oh] eqn:Eh.
        exists th, oh. split; [apply IHh; exact Eh |].
        destruct oh as [s2 b | s2 e'].
        -- destruct (run impl (k b) s2) as [t' o'] eqn:Ek.
           inversion H; subst. exists t'. split; [reflexivity |].
           apply IHk. exact Ek.
        -- inversion H; subst. auto.
Qed.

(** So the interpreter's result is an execution. *)
Lemma run_is_exec (impl : implementation) (A : Type) (p : prog A) (s : state) :
  exec (graph impl) p s (fst (run impl p s)) (snd (run impl p s)).
Proof. apply run_exec. destruct (run impl p s); reflexivity. Qed.

Lemma graph_deterministic (impl : implementation) : deterministic (graph impl).
Proof. intros c w r1 r2 H1 H2. unfold graph in *. congruence. Qed.

Lemma graph_total (impl : implementation) : total (graph impl).
Proof. intros c w. exists (impl c w). reflexivity. Qed.

(** Every program runs to an end against a package that always replies. *)
Lemma exec_total (lib : library) (Hlib : total lib) (A : Type) (p : prog A) :
  forall s : state, exists t o, exec lib p s t o.
Proof.
  induction p as [A a | A c k IH | A text k IH | A B body IHb handler IHh k IHk];
    intros s; simpl.
  - eauto.
  - destruct (Hlib c (backend s)) as [[w x | w e] Hr].
    + destruct (IH x (with_backend s w)) as [t' [o H]].
      exists (Called s c (Ok w (to_obj c x)) :: t'), o.
      exists (Returned w x). split; [exact Hr |]. eauto.
    + exists [Called s c (Exc w e)], (Uncaught (with_backend s w) e).
      exists (Raised w e). split; [exact Hr |]. auto.
  - destruct (IH (write s text)) as [t' [o H]]. eauto.
  - destruct (IHb s) as [tb [[s1 b | s1 e] Hb]].
    + destruct (IHk b s1) as [t' [o H]].
      exists (tb ++ t'), o, tb, (Done s1 b). split; [exact Hb |]. eauto.
    + destruct (IHh e s1) as [th [[s2 b | s2 e'] Hh]].
      * destruct (IHk b s2) as [t' [o H]].
        exists (tb ++ th ++ t'), o, tb, (Uncaught s1 e). split; [exact Hb |].
        exists th, (Done s2 b). split; [exact Hh |]. eauto.
      * exists (tb ++ th), (Uncaught s2 e'), tb, (Uncaught s1 e).
        split; [exact Hb |].
        exists th, (Uncaught s2 e'). split; [exact Hh |]. auto.
Qed.

(** Against a deterministic package a program has at most one execution. *)
Lemma exec_functional (lib : library) (Hlib : deterministic lib)
  (A : Type) (p : prog A) :
  forall (s : state) (t1 t2 : trace) (o1 o2 : outcome A),
    exec lib p s t1 o1 -> exec lib p s t2 o2 -> t1 = t2 /\ o1 = o2.
Proof.
  induction p as [A a | A c k IH | A text k IH | A B body IHb handler IHh k IHk];
    intros s t1 t2 o1 o2; simpl.
  - intros [-> ->] [-> ->]. auto.
  - intros [r1 [L1 H1]] [r2 [L2 H2]].
    pose proof (Hlib _ _ _ _ L1 L2) as <-.
    destruct r1 as [w x | w e].
    + destruct H1 as [t1' [-> H1]]. destruct H2 as [t2' [-> H2]].
      destruct (IH _ _ _ _ _ _ H1 H2) as [-> ->]. auto.
    + destruct H1 as [-> ->]. destruct H2 as [-> ->]. auto.
  - intros [t1' [-> H1]] [t2' [-> H2]].
    destruct (IH _ _ _ _ _ H1 H2) as [-> ->]. auto.
  - intros [tb1 [ob1 [Hb1 H1]]] [tb2 [ob2 [Hb2 H2]]].
    destruct (IHb _ _ _ _ _ Hb1 Hb2) as [<- <-].
    destruct ob1 as [s1 b | s1 e].
    + destruct H1 as [t1' [-> H1]]. destruct H2 as [t2' [-> H2]].
      destruct (IHk _ _ _ _ _ _ H1 H2) as [-> ->]. auto.
    + destruct H1 as [th1 [oh1 [Hh1 H1]]]. destruct H2 as [th2 [oh2 [Hh2 H2]]].
      destruct (IHh _ _ _ _ _ _ Hh1 Hh2) as [<- <-].
      destruct oh1 as [s2 b | s2 e'].
      * destruct H1 as [t1' [-> H1]]. destruct H2 as [t2' [-> H2]].
        destruct (IHk _ _ _ _ _ _ H1 H2) as [-> ->]. auto.
      * destruct H1 as [-> ->]. destruct H2 as [-> ->]. auto.
Qed.

(** Without a handler, an exception raised by a call is the end of the run:
    the raising step is the last one and its exception is the outcome. *)
Lemma handler_free_raise (lib : library) (A : Type) (p : prog A) :
  handler_free p ->
  forall (s : state) (t : trace) (o : outcome A),
    exec lib p s t o ->
    forall (x : entry) (e : Exn),
      In x t -> raised x = Some e ->
      (exists pre, t = pre ++ [x]) /\ (exists s', o = Uncaught s' e).
Proof.
  induction p as [A a | A c k IH | A text k IH | A B body IHb handler IHh k IHk];
    simpl; intros Hfree s t o H x e Hin Hx.
  - destruct H as [-> _]. destruct Hin.
  - destruct H as [[w y | w e0] [_ H]]; simpl in H.
    + destruct H as [t' [-> H]]. destruct Hin as [<- | Hin]; [discriminate Hx |].
      destruct (IH y (Hfree y) _ _ _ H x e Hin Hx) as [[pre ->] Ho].
      split; [| exact Ho]. exists (Called s c (Ok w (to_obj c y)) :: pre).
      reflexivity.
    + destruct H as [-> ->]. destruct Hin as [<- | []]. simpl in Hx.
      inversion Hx; subst. split; [exists []; reflexivity | eauto].
  - destruct H as [t' [-> H]]. destruct Hin as [<- | Hin]; [discriminate Hx |].
    destruct (IH Hfree _ _ _ H x e Hin Hx) as [[pre ->] Ho].
    split; [| exact Ho]. exists (Wrote s text :: pre). reflexivity.
  - destruct Hfree.
Qed.

(** Without a handler, an uncaught exception is the one the last step
    raised. *)
Lemma handler_free_uncaught (lib : library) (A : Type) (p : prog A) :
  handler_free p ->
  forall (s s' : state) (t : trace) (e : Exn),
    exec lib p s t (Uncaught s' e) ->
    exists pre x, t = pre ++ [x] /\ raised x = Some e.
Proof.
  induction p as [A a | A c k IH | A text k IH | A B body IHb handler IHh k IHk];
    simpl; intros Hfree s s' t e H.
  - destruct H as [_ H]. discriminate H.
  - destruct H as [[w y | w e0] [_ H]]; simpl in H.
    + destruct H as [t' [-> H]].
      destruct (IH y (Hfree y) _ _ _ _ H) as [pre [x [-> Hx]]].
      exists (Called s c (Ok w (to_obj c y)) :: pre), x. auto.
    + destruct H as [-> H]. inversion H; subst.
      eexists [], _. split; reflexivity.
  - destruct H as [t' [-> H]].
    destruct (IH Hfree _ _ _ _ H) as [pre [x [-> Hx]]].
    exists (Wrote s text :: pre), x. auto.
  - destruct Hfree.
Qed.

End Semantics_facts.

(** ** The script: what every run of it looks like *)

(** Takes the hypothesis [H : exec lib p s t o] of a straight-line program
    apart, one call at a time: a goal for each call that may raise and one
    for the run that reaches the end. *)
Ltac call_step H :=
  lazymatch type of H with
  | @ex (reply _ _ _) _ =>
      let w := fresh "w" in
      let x := fresh "x" in
      let e := fresh "e" in
      let L := fresh "Hlib" in
      let Ht := fresh "Htrace" in
      let Ho := fresh "Hend" in
      destruct H as [[w x | w e] [L H]];
      [ destruct H as [? [Ht H]] | destruct H as [Ht Ho] ]
  end.

Ltac write_step H :=
  lazymatch type of H with
  | @ex (list _) _ =>
      let Ht := fresh "Htrace" in destruct H as [? [Ht H]]
  end.

Ltac ret_step H :=
  lazymatch type of H with
  | _ = [] /\ _ = _ =>
      let Ht := fresh "Htrace" in
      let Ho := fresh "Hend" in
      destruct H as [Ht Ho]
  end.

Ltac run_cases H :=
  cbn [exec exec_model input_builder print bind] in H;
  repeat first [call_step H | write_step H | ret_step H];
  cbn [result backend with_backend write stdout] in *;
  repeat match goal with u : unit |- _ => destruct u end.

(** Takes membership in a short explicit list apart. *)
Ltac members :=
  repeat match goal with
    | H : _ \/ _ |- _ => destruct H
    | H : False |- _ => destruct H
    | H : (_, _) = (_, _) |- _ => inversion H; clear H; subst
    | H : Called _ _ _ = Called _ _ _ |- _ => inversion H; clear H; subst
    | H : Wrote _ _ = Wrote _ _ |- _ => inversion H; clear H; subst
    end;
  try discriminate.

Section Script_facts.

Variables (World Model Frame Exn : Type).
Variable lib : library World Model Frame Exn.

Abbreviation state := (state World).
Abbreviation trace := (trace World Model Frame Exn).
Abbreviation outcome := (outcome World Exn).
Abbreviation entry := (entry World Model Frame Exn).

(** The script factors through the input builder applied to [my_wine]. *)
Lemma exec_model_steps :
  @exec_model Model Frame Exn =
  Call (import "h2o") (fun _ =>
  Call h2o_init (fun _ =>
  Call (h2o_load_model model_path) (fun model =>
  bind (input_builder my_wine) (fun wine_frame =>
  Call (predict model wine_frame) (fun predictions =>
  print predictions))))).
Proof. reflexivity. Qed.

(** C1. The runs of the script that reach the end are exactly those in which
    every call returns, one after the other; in such a run the text written
    to standard output is [str] of the very object that [predict] returned for
    the model loaded from the hardcoded path and the frame built from the row
    [7, 0.27, 0.36, 20.7, 0.045, 45, 170, 1.001, 3, 0.45, 8.8] with the eleven
    names assigned, followed by a line feed; nothing else is written and
    nothing is done to the prediction in between. *)
Theorem prints_model_prediction (s s' : state) (t : trace) :
  exec lib exec_model s t (Done s' tt) <->
  exists (w1 w2 w3 : World) (model : Model) (w4 : World) (wine_frame : Frame)
         (w5 w6 : World) (predictions : Frame) (w7 : World) (text : string),
    lib (import "h2o") (backend s) (Returned w1 tt) /\
    lib h2o_init w1 (Returned w2 tt) /\
    lib (h2o_load_model model_path) w2 (Returned w3 model) /\
    lib (h2o_H2OFrame
           [[PyInt 7; PyFloat 0.27; PyFloat 0.36; PyFloat 20.7; PyFloat 0.045;
             PyInt 45; PyInt 170; PyFloat 1.001; PyInt 3; PyFloat 0.45;
             PyFloat 8.8]]) w3 (Returned w4 wine_frame) /\
    lib (set_columns wine_frame
           ["fixed acidity"; "volatile acidity"; "citric acid"; "residual sugar";
            "chlorides"; "free sulfur dioxide"; "total sulfur dioxide";
            "density"; "pH"; "sulphates"; "alcohol"]) w4 (Returned w5 tt) /\
    lib (predict model wine_frame) w5 (Returned w6 predictions) /\
    lib (str predictions) w6 (Returned w7 text) /\
    t = full_run s w1 w2 w3 model w4 wine_frame w5 w6 predictions w7 text /\
    s' = {| backend := w7; stdout := stdout s ++ text ++ newline |}.
Proof.
  split.
  - intros H. run_cases H; subst; try discriminate.
    match goal with H : Done _ _ = Done _ _ |- _ => inversion H; subst end.
    do 11 eexists. repeat (split; [eassumption |]). split; reflexivity.
  - intros (w1 & w2 & w3 & model & w4 & wine_frame & w5 & w6 & predictions & w7
            & text & L1 & L2 & L3 & L4 & L5 & L6 & L7 & -> & ->).
    cbn [exec exec_model print].
    exists (Returned w1 tt); split; [exact L1 |]; eexists; split; [reflexivity |].
    exists (Returned w2 tt); split; [exact L2 |]; eexists; split; [reflexivity |].
    exists (Returned w3 model); split; [exact L3 |]; eexists; split; [reflexivity |].
    exists (Returned w4 wine_frame); split; [exact L4 |]; eexists; split; [reflexivity |].
    exists (Returned w5 tt); split; [exact L5 |]; eexists; split; [reflexivity |].
    exists (Returned w6 predictions); split; [exact L6 |]; eexists; split; [reflexivity |].
    exists (Returned w7 text); split; [exact L7 |]; eexists; split; [reflexivity |].
    eexists; split; [reflexivity |]. split; reflexivity.
Qed.

(** C3. Every run of the script, however it ends, goes through the call sites
    in the one order import, init, load_model, H2OFrame, columns, predict,
    str, write and stops somewhere along it: the sites reached are an initial
    segment of that list, so init has returned before the model is loaded and
    the model and the labelled frame are there before predict is called; no
    site is reached twice; a step that raised is the last step (nothing is
    retried); and a run that reaches the end went through every site exactly
    once, the write to standard output last. *)
Theorem single_forward_pass (s : state) (t : trace) (o : outcome unit) :
  exec lib exec_model s t o ->
  (exists n, map (@site_of _ _ _ _) t = firstn n pipeline) /\
  (forall a, occurrences a t <= 1) /\
  (forall x e, In x t -> raised x = Some e -> exists pre, t = pre ++ [x]) /\
  (forall s' u, o = Done s' u ->
     map (@site_of _ _ _ _) t = pipeline /\
     (forall a, occurrences a t = 1) /\
     exists pre s_w text, t = pre ++ [Wrote s_w text]).
Proof.
  intros H. split; [| split; [| split]].
  - run_cases H; subst;
      match goal with |- exists n, map _ ?t = _ => exists (List.length t) end;
      reflexivity.
  - intros a. run_cases H; subst; destruct a; cbn; lia.
  - intros x e Hin Hx.
    refine (proj1 (handler_free_raise lib exec_model _ _ _ _ H x Hin Hx)).
    cbn. intros. exact I.
  - intros s' u ->. run_cases H; subst; try discriminate.
    split; [reflexivity |]. split.
    + intros a. destruct a; reflexivity.
    + eexists [_; _; _; _; _; _; _], _, _. reflexivity.
Qed.

(** C4. In every run in which [h2o.load_model] raises, that exception is the
    outcome of the run: the interpreter exits with status 1, [predict] was
    never called, [str] neither, and nothing was written to standard
    output. *)
Theorem load_failure_stops_the_run (s : state) (t : trace) (o : outcome unit) :
  exec lib exec_model s t o ->
  forall s1 path w e,
    In (Called s1 (h2o_load_model path) (Exc w e)) t ->
    o = Uncaught (with_backend s1 w) e /\
    exit_status o = 1%Z /\
    occurrences at_predict t = 0 /\
    occurrences at_str t = 0 /\
    occurrences at_stdout t = 0 /\
    stdout (final_state o) = stdout s.
Proof.
  intros H s1 path w e Hin.
  run_cases H; subst; cbn [In] in Hin;
    repeat match goal with
      | H : _ \/ _ |- _ => destruct H
      | H : False |- _ => destruct H
      end;
    try discriminate.
  match goal with H : Called _ _ _ = Called _ _ _ |- _ => inversion H; subst end.
  repeat split.
Qed.

(** C6. The script installs no exception handler, and so in every run an
    exception raised by any of its calls (import, init, load_model, H2OFrame,
    the column assignment, predict, str) is the outcome of the run: the step
    that raised is the last one, nothing is caught, retried or recovered
    from, and the exit status is 1; conversely a run ends with an exception
    only if its last call raised it, and with status 0 only if no call
    raised. *)
Theorem no_error_handling (s : state) (t : trace) (o : outcome unit) :
  exec lib exec_model s t o ->
  handler_free (@exec_model Model Frame Exn) /\
  (forall x e, In x t -> raised x = Some e ->
     (exists pre, t = pre ++ [x]) /\
     (exists s', o = Uncaught s' e) /\
     exit_status o = 1%Z) /\
  (forall s' e, o = Uncaught s' e ->
     exists pre x, t = pre ++ [x] /\ raised x = Some e) /\
  (exit_status o = 0%Z -> forall x, In x t -> raised x = None).
Proof.
  intros H.
  assert (Hfree : handler_free (@exec_model Model Frame Exn))
    by (cbn; intros; exact I).
  split; [exact Hfree |]. split; [| split].
  - intros x e Hin Hx.
    destruct (handler_free_raise lib exec_model Hfree _ _ _ H x Hin Hx)
      as [Hlast [s' ->]].
    split; [exact Hlast |]. split; [eauto | reflexivity].
  - intros s' e ->. exact (handler_free_uncaught lib exec_model Hfree _ _ _ _ H).
  - intros Hexit x Hin. destruct (raised x) as [e |] eqn:Hx; [| reflexivity].
    destruct (handler_free_raise lib exec_model Hfree _ _ _ H x Hin Hx)
      as [_ [s' ->]].
    discriminate Hexit.
Qed.


(** C2. Let [columns] read a frame's column names, and let the package keep
    the law of its setter: after [frame.columns = names] has returned, the
    frame's names are [names].  Then whenever the input builder completes,
    for any row, the names of the frame it built are the eleven of the
    script, in the script's order, the assignment of exactly this list
    having been its last step; and in every run of the script the frame
    carries exactly these names at the moment [predict] is called on it. *)
Theorem column_names_assigned
  (columns : World -> Frame -> list string)
  (setter_law : forall f names w w',
      lib (set_columns f names) w (Returned w' tt) -> columns w' f = names) :
  (forall row s t s' wine_frame,
     exec lib (input_builder row) s t (Done s' wine_frame) ->
     columns (backend s') wine_frame =
     ["fixed acidity"; "volatile acidity"; "citric acid"; "residual sugar";
      "chlorides"; "free sulfur dioxide"; "total sulfur dioxide";
      "density"; "pH"; "sulphates"; "alcohol"] /\
     exists w,
       t = [ Called s (h2o_H2OFrame [row]) (Ok w (PyFrame wine_frame));
             Called (with_backend s w)
               (set_columns wine_frame
                  ["fixed acidity"; "volatile acidity"; "citric acid";
                   "residual sugar"; "chlorides"; "free sulfur dioxide";
                   "total sulfur dioxide"; "density"; "pH"; "sulphates";
                   "alcohol"])
               (Ok (backend s') PyNone) ]) /\
  (forall s t o s_p m f r,
     exec lib exec_model s t o ->
     In (Called s_p (predict m f) r) t ->
     columns (backend s_p) f =
     ["fixed acidity"; "volatile acidity"; "citric acid"; "residual sugar";
      "chlorides"; "free sulfur dioxide"; "total sulfur dioxide";
      "density"; "pH"; "sulphates"; "alcohol"]).
Proof.
  split.
  - intros row s t s' wine_frame H.
    run_cases H; subst; try discriminate.
    match goal with H : Done _ _ = Done _ _ |- _ => inversion H; subst end.
    split; [cbn; eapply setter_law; eassumption |].
    eexists. reflexivity.
  - intros s t o s_p m f r H Hin.
    run_cases H; subst; cbn [In] in Hin; members;
      cbn; eapply setter_law; eassumption.
Qed.

(** C5. Let the package check arity as h2o does ([arity_checked]: a one-row
    frame has as many columns as the row has values, one if it has none, and
    the setter of [columns] returns only for as many names as the frame has
    columns).  Then for every row with fewer or more than 11 values, the
    empty row included, every run of the input builder ends with an
    exception, raised by its last step and caught by nothing; the row
    reaches [H2OFrame] as it is, neither cut nor filled up, and the names
    offered are the script's eleven. *)
Theorem wrong_row_length_fails
  (ncol : World -> Frame -> nat) (laws : arity_checked lib ncol) :
  forall row : list pynum,
    List.length row <> 11 ->
    forall s t o,
      exec lib (input_builder row) s t o ->
      (exists s' e, o = Uncaught s' e /\
                    exists pre x, t = pre ++ [x] /\ raised x = Some e) /\
      (forall s1 python_obj r,
         In (Called s1 (h2o_H2OFrame python_obj) r) t -> python_obj = [row]) /\
      (forall s1 f names r,
         In (Called s1 (set_columns f names) r) t ->
         names = column_names /\ List.length names = 11).
Proof.
  intros row Hrow s t o H. destruct laws as [frame_law setter_checks].
  split; [| split].
  - run_cases H; subst.
    + match goal with
      | L1 : lib (h2o_H2OFrame _) _ _, L2 : lib (set_columns _ _) _ _ |- _ =>
          apply frame_law in L1; apply setter_checks in L2;
          rewrite L1 in L2; cbn [List.length column_names] in L2; lia
      end.
    + do 2 eexists. split; [reflexivity |]. eexists [_], _. split; reflexivity.
    + do 2 eexists. split; [reflexivity |]. eexists [], _. split; reflexivity.
  - intros s1 python_obj r Hin.
    run_cases H; subst; cbn [In] in Hin; members; reflexivity.
  - intros s1 f names r Hin.
    run_cases H; subst; cbn [In] in Hin; members; split; reflexivity.
Qed.

(** What [predict] returns in a run, and what is printed, in terms of the
    start state alone, for a package whose operations are functions of their
    inputs. *)
Lemma prediction_formula
  (Bytes Predictor Table : Type) (r : reading World Model Frame Bytes Predictor Table)
  (laws : functional_package lib r)
  (s : state) (t : trace) (o : outcome unit) :
  exec lib exec_model s t o ->
  (forall s_p m f w p,
     In (Called s_p (predict m f) (Ok w (PyFrame p))) t ->
     table r w p =
     apply_model r (parse r (file r (backend s) model_path))
       (rename r (build r [my_wine]) column_names)) /\
  (forall s_w text,
     In (Wrote s_w text) t ->
     text =
     (render r (apply_model r (parse r (file r (backend s) model_path))
                  (rename r (build r [my_wine]) column_names))
      ++ newline)%string).
Proof.
  destruct laws as (Limport & Linit & Lload & Lframe & Lset & Lpredict & Lstr).
  intros H. split.
  - intros s_p m f w p Hin.
    run_cases H; subst; cbn [In] in Hin; members;
      match goal with
      | Hi : lib (import _) _ _, Hn : lib h2o_init _ _,
        Hl : lib (h2o_load_model _) _ _, Hf : lib (h2o_H2OFrame _) _ _,
        Hs : lib (set_columns _ _) _ _, Hp : lib (predict _ _) _ _ |- _ =>
          rewrite (Lpredict _ _ _ _ _ Hp),
            (proj1 (Lset _ _ _ _ Hs)), (proj1 (Lframe _ _ _ _ Hf)),
            (proj2 (Lset _ _ _ _ Hs)), (proj2 (Lframe _ _ _ _ Hf)),
            (Lload _ _ _ _ Hl), (Linit _ _ Hn), (Limport _ _ _ Hi);
          reflexivity
      end.
  - intros s_w text Hin.
    run_cases H; subst; cbn [In] in Hin; members.
    match goal with
    | Hi : lib (import _) _ _, Hn : lib h2o_init _ _,
      Hl : lib (h2o_load_model _) _ _, Hf : lib (h2o_H2OFrame _) _ _,
      Hs : lib (set_columns _ _) _ _, Hp : lib (predict _ _) _ _,
      Hr : lib (str _) _ _ |- _ =>
        rewrite (Lstr _ _ _ _ Hr), (Lpredict _ _ _ _ _ Hp),
          (proj1 (Lset _ _ _ _ Hs)), (proj1 (Lframe _ _ _ _ Hf)),
          (proj2 (Lset _ _ _ _ Hs)), (proj2 (Lframe _ _ _ _ Hf)),
          (Lload _ _ _ _ Hl), (Linit _ _ Hn), (Limport _ _ _ Hi);
        reflexivity
    end.
Qed.

(** C8. Let the h2o operations be functions of their inputs
    ([functional_package]: the assumption the specification makes of the
    model).  Take two runs of the script that start in any two states, two
    sessions with whatever else differs between them, in which the same
    bytes lie at the hardcoded path.  Then the prediction [predict] returns
    in the one is the prediction it returns in the other, namely the
    predictor parsed from those bytes applied to the table built from
    [my_wine] and renamed to the eleven names, and the two runs print the
    same text. *)
Theorem same_artifact_same_prediction
  (Bytes Predictor Table : Type) (r : reading World Model Frame Bytes Predictor Table)
  (laws : functional_package lib r)
  (s1 s2 : state) (t1 t2 : trace) (o1 o2 : outcome unit) :
  file r (backend s1) model_path = file r (backend s2) model_path ->
  exec lib exec_model s1 t1 o1 ->
  exec lib exec_model s2 t2 o2 ->
  (forall sp1 m1 f1 w1 p1 sp2 m2 f2 w2 p2,
     In (Called sp1 (predict m1 f1) (Ok w1 (PyFrame p1))) t1 ->
     In (Called sp2 (predict m2 f2) (Ok w2 (PyFrame p2))) t2 ->
     table r w1 p1 = table r w2 p2 /\
     table r w1 p1 =
     apply_model r (parse r (file r (backend s1) model_path))
       (rename r (build r [my_wine]) column_names)) /\
  (forall sw1 text1 sw2 text2,
     In (Wrote sw1 text1) t1 -> In (Wrote sw2 text2) t2 -> text1 = text2).
Proof.
  intros Hfile H1 H2.
  destruct (prediction_formula laws H1) as [P1 W1].
  destruct (prediction_formula laws H2) as [P2 W2].
  split.
  - intros sp1 m1 f1 w1 p1 sp2 m2 f2 w2 p2 Hin1 Hin2.
    rewrite (P1 _ _ _ _ _ Hin1), (P2 _ _ _ _ _ Hin2), Hfile. split; reflexivity.
  - intros sw1 text1 sw2 text2 Hin1 Hin2.
    rewrite (W1 _ _ Hin1), (W2 _ _ Hin2), Hfile. reflexivity.
Qed.

(** C9. Take two runs of the script in any two surroundings: two packages,
    two starting states, which is where command-line arguments, environment
    variables and configuration files would have to act.  In each, every call
    of [h2o.load_model] carries the one hardcoded path; and if the two runs
    were handed back the same objects and exceptions, they made the same
    calls in the same order with the same arguments and wrote the same text:
    what the script asks for depends on what it was given back and on
    nothing else. *)
Theorem independent_of_surroundings
  (lib1 lib2 : library World Model Frame Exn)
  (s1 s2 : state) (t1 t2 : trace) (o1 o2 : outcome unit) :
  exec lib1 exec_model s1 t1 o1 ->
  exec lib2 exec_model s2 t2 o2 ->
  (forall s path r,
     In (Called s (h2o_load_model path) r) t1 ->
     path = "mlruns/0/models/m-935ff251a94d41899ecbee172e66c5b8/artifacts/model.h2o/DRF_model_python_1751837466102_2") /\
  (map (@answer_of _ _ _ _) t1 = map (@answer_of _ _ _ _) t2 ->
   map (@request_of _ _ _ _) t1 = map (@request_of _ _ _ _) t2) /\
  (forall n x1 x2,
     nth_error t1 n = Some x1 -> nth_error t2 n = Some x2 ->
     site_of x1 = site_of x2).
Proof.
  intros H1 H2. split; [| split].
  - intros s path r Hin. clear H2.
    run_cases H1; subst; cbn [In] in Hin; members; reflexivity.
  - run_cases H1; subst; run_cases H2; subst; cbn [map answer_of];
      intros Heq; try discriminate; inversion Heq; subst; reflexivity.
  - intros n x1 x2 Hn1 Hn2.
    assert (P1 : exists k, map (@site_of _ _ _ _) t1 = firstn k pipeline).
    { clear H2 Hn1 Hn2. run_cases H1; subst;
        match goal with |- exists k, map _ ?t = _ => exists (List.length t) end;
        reflexivity. }
    assert (P2 : exists k, map (@site_of _ _ _ _) t2 = firstn k pipeline).
    { clear H1 P1 Hn1 Hn2. run_cases H2; subst;
        match goal with |- exists k, map _ ?t = _ => exists (List.length t) end;
        reflexivity. }
    destruct P1 as [k1 P1]. destruct P2 as [k2 P2].
    apply (map_nth_error (@site_of _ _ _ _)) in Hn1, Hn2.
    rewrite P1 in Hn1. rewrite P2 in Hn2.
    assert (F : forall k m a, nth_error (firstn k pipeline) m = Some a ->
                              nth_error pipeline m = Some a).
    { intros k m a Hk. destruct (Nat.lt_ge_cases m k) as [Hlt | Hge].
      - rewrite nth_error_firstn in Hk.
        apply Nat.ltb_lt in Hlt. rewrite Hlt in Hk. exact Hk.
      - rewrite nth_error_firstn in Hk.
        apply Nat.ltb_ge in Hge. rewrite Hge in Hk. discriminate Hk. }
    apply F in Hn1. apply F in Hn2. congruence.
Qed.

(** C10. The row of line 7 has eleven numbers and the list of lines 10-12
    has eleven names; what is handed to [H2OFrame] is one row of eleven
    values, and what is assigned to [columns] is eleven names, in every run;
    and on the executable package the frame that the input builder leaves is
    one row by eleven columns. *)
Theorem literal_lengths_agree :
  List.length my_wine = 11 /\
  List.length column_names = 11 /\
  List.length my_wine = List.length column_names /\
  (forall (s : state) (t : trace) (o : outcome unit),
     exec lib exec_model s t o ->
     (forall s1 python_obj r,
        In (Called s1 (h2o_H2OFrame python_obj) r) t ->
        List.length python_obj = 1 /\
        Forall (fun row => List.length row = 11) python_obj) /\
     (forall s1 f names r,
        In (Called s1 (set_columns f names) r) t -> List.length names = 11)) /\
  (exists s' wine_frame,
     snd (run Ref.h2o (input_builder my_wine) (Ref.start (Ref.connect Ref.ready)))
     = Done s' wine_frame /\
     Ref.nrow (backend s') wine_frame = 1 /\
     Ref.ncol (backend s') wine_frame = 11).
Proof.
  split; [reflexivity |]. split; [reflexivity |]. split; [reflexivity |]. split.
  - intros s t o H. split.
    + intros s1 python_obj r Hin.
      run_cases H; subst; cbn [In] in Hin; members;
        (split; [reflexivity | repeat constructor]).
    + intros s1 f names r Hin.
      run_cases H; subst; cbn [In] in Hin; members; reflexivity.
  - do 2 eexists. split; [vm_compute; reflexivity |]. split; reflexivity.
Qed.

End Script_facts.

(** ** The executable package keeps h2o's laws *)

Lemma nth_error_set_nth (X : Type) (l : list X) :
  forall (i : nat) (x y : X),
    nth_error l i = Some y -> nth_error (Ref.set_nth i x l) i = Some x.
Proof.
  induction l as [| z l IH]; intros [| i] x y H; simpl in *;
    try discriminate; eauto.
Qed.

(** After [frame.columns = names] has returned the frame's names are
    [names]. *)
Lemma Ref_setter_law (f : Ref.frame) (names : list string) (w w' : Ref.world) :
  graph Ref.h2o (set_columns f names) w (Returned w' tt) ->
  Ref.columns w' f = names.
Proof.
  unfold graph. cbn. destruct (nth_error (Ref.frames w) f) as [d |] eqn:E;
    [| discriminate].
  destruct (Nat.eqb _ _); [| discriminate].
  intros H. inversion H; subst. unfold Ref.columns. cbn.
  rewrite (nth_error_set_nth _ _ _ E). reflexivity.
Qed.

(** The executable package checks arity as h2o does. *)
Lemma Ref_arity_checked : arity_checked (graph Ref.h2o) Ref.ncol.
Proof.
  split.
  - intros row w w' f. unfold graph. cbn.
    destruct (Ref.connected w); [| discriminate].
    intros H. inversion H; subst. unfold Ref.ncol, Ref.columns. cbn.
    rewrite nth_error_app2, Nat.sub_diag by apply le_n. cbn.
    rewrite length_map, length_seq. apply Nat.max_comm.
  - intros f names w w'. unfold graph, Ref.ncol, Ref.columns. cbn.
    destruct (nth_error (Ref.frames w) f) as [d |]; [| discriminate].
    destruct (Nat.eqb _ _) eqn:E; [| discriminate].
    intros _. apply Nat.eqb_eq. exact E.
Qed.

Lemma nth_error_snoc (X : Type) (l : list X) (x : X) :
  nth_error (l ++ [x]) (List.length l) = Some x.
Proof. rewrite nth_error_app2, Nat.sub_diag by apply le_n. reflexivity. Qed.

(** Takes a reply [E : graph Ref.h2o c w (Returned ...)] apart along the
    tests the package makes. *)
Ltac reply_cases E :=
  unfold graph, Ref.h2o in E;
  repeat match type of E with
    | context [if ?b then _ else _] => destruct b eqn:?
    | context [match ?x with Some _ => _ | None => _ end] => destruct x eqn:?
    end;
  inversion E; subst.

(** The operations of the executable package are functions of their
    inputs. *)
Lemma Ref_functional_package : functional_package (graph Ref.h2o) Ref.observed.
Proof.
  unfold functional_package.
  split; [| split; [| split; [| split; [| split; [| split]]]]].
  - intros name w w' E path. reply_cases E. reflexivity.
  - intros w w' E path. reply_cases E. reflexivity.
  - intros path w w' m E. reply_cases E. cbn. congruence.
  - intros python_obj w w' f E. reply_cases E. split; [| reflexivity].
    cbn. apply nth_error_snoc.
  - intros f names w w' E. reply_cases E. split; [| reflexivity]. cbn.
    match goal with
    | Ed : nth_error _ _ = Some _ |- _ =>
        rewrite Ed; apply (nth_error_set_nth _ _ _ Ed)
    end.
  - intros m f w w' p E. reply_cases E. cbn.
    match goal with
    | Ed : nth_error _ _ = Some _ |- _ => rewrite Ed; apply nth_error_snoc
    end.
  - intros p w w' text E. reply_cases E. cbn.
    match goal with
    | Ed : nth_error _ _ = Some _ |- _ => rewrite Ed; reflexivity
    end.
Qed.

(** ** The theorems at work on the executable package *)

Lemma whole_run_exec (w : Ref.world) :
  exec (graph Ref.h2o) exec_model (Ref.start w)
    (fst (Ref.whole_run w)) (snd (Ref.whole_run w)).
Proof. exact (run_is_exec Ref.h2o exec_model (Ref.start w)). Qed.

Lemma build_exec (row : list pynum) (w : Ref.world) :
  exec (graph Ref.h2o) (input_builder row) (Ref.start (Ref.connect w))
    (fst (Ref.build row w)) (snd (Ref.build row w)).
Proof.
  exact (run_is_exec Ref.h2o (input_builder row) (Ref.start (Ref.connect w))).
Qed.

(** On the ready machine the script runs to the end and prints the frame
    that the model's [predict] returned. *)
Lemma prints_model_prediction_witness :
  exec (graph Ref.h2o) exec_model (Ref.start Ref.ready)
    (fst (Ref.whole_run Ref.ready))
    (Done (final_state (snd (Ref.whole_run Ref.ready))) tt) /\
  exists text,
    stdout (final_state (snd (Ref.whole_run Ref.ready))) =
    ("" ++ text ++ newline)%string.
Proof.
  assert (H : exec (graph Ref.h2o) exec_model (Ref.start Ref.ready)
                (fst (Ref.whole_run Ref.ready))
                (Done (final_state (snd (Ref.whole_run Ref.ready))) tt))
    by exact (whole_run_exec Ref.ready).
  split; [exact H |].
  destruct (proj1 (prints_model_prediction (graph Ref.h2o) _ _ _) H)
    as (w1 & w2 & w3 & model & w4 & wine_frame & w5 & w6 & predictions & w7
        & text & _ & _ & _ & _ & _ & _ & _ & _ & Hs).
  exists text. rewrite Hs. reflexivity.
Defined.

(** On the ready machine the run goes through the whole pipeline. *)
Lemma single_forward_pass_witness :
  exec (graph Ref.h2o) exec_model (Ref.start Ref.ready)
    (fst (Ref.whole_run Ref.ready)) (snd (Ref.whole_run Ref.ready)) /\
  map (@site_of _ _ _ _) (fst (Ref.whole_run Ref.ready)) = pipeline.
Proof.
  split; [exact (whole_run_exec Ref.ready) |].
  destruct (single_forward_pass (whole_run_exec Ref.ready)) as (_ & _ & _ & Hdone).
  eapply Hdone. vm_compute. reflexivity.
Defined.

(** Without the artifact [load_model] raises and the run is over. *)
Lemma load_failure_stops_the_run_witness :
  exec (graph Ref.h2o) exec_model (Ref.start Ref.no_artifact)
    (fst (Ref.whole_run Ref.no_artifact)) (snd (Ref.whole_run Ref.no_artifact)) /\
  In (Called (Ref.start (Ref.connect Ref.no_artifact))
        (h2o_load_model model_path)
        (Exc (Ref.connect Ref.no_artifact) "H2OResponseError"))
     (fst (Ref.whole_run Ref.no_artifact)) /\
  snd (Ref.whole_run Ref.no_artifact) =
    Uncaught (Ref.start (Ref.connect Ref.no_artifact)) "H2OResponseError" /\
  occurrences at_predict (fst (Ref.whole_run Ref.no_artifact)) = 0 /\
  stdout (final_state (snd (Ref.whole_run Ref.no_artifact))) = "".
Proof.
  assert (Hin : In (Called (Ref.start (Ref.connect Ref.no_artifact))
                      (h2o_load_model model_path)
                      (Exc (Ref.connect Ref.no_artifact) "H2OResponseError"))
                   (fst (Ref.whole_run Ref.no_artifact)))
    by (vm_compute; right; right; left; reflexivity).
  split; [exact (whole_run_exec Ref.no_artifact) |]. split; [exact Hin |].
  destruct (load_failure_stops_the_run (whole_run_exec Ref.no_artifact)
              _ _ _ _ Hin) as (Ho & _ & Hp & _ & _ & Hout).
  split; [exact Ho |]. split; [exact Hp | exact Hout].
Defined.

(** When no cluster can be started [init] raises and the exit status is 1. *)
Lemma no_error_handling_witness :
  exec (graph Ref.h2o) exec_model (Ref.start Ref.unreachable)
    (fst (Ref.whole_run Ref.unreachable)) (snd (Ref.whole_run Ref.unreachable)) /\
  In (Called (Ref.start Ref.unreachable) h2o_init
        (Exc Ref.unreachable "H2OStartupError"))
     (fst (Ref.whole_run Ref.unreachable)) /\
  exit_status (snd (Ref.whole_run Ref.unreachable)) = 1%Z.
Proof.
  assert (Hin : In (Called (Ref.start Ref.unreachable) h2o_init
                      (Exc Ref.unreachable "H2OStartupError"))
                   (fst (Ref.whole_run Ref.unreachable)))
    by (vm_compute; right; left; reflexivity).
  split; [exact (whole_run_exec Ref.unreachable) |]. split; [exact Hin |].
  destruct (no_error_handling (whole_run_exec Ref.unreachable))
    as (_ & Hraise & _ & _).
  exact (proj2 (proj2 (Hraise _ _ Hin eq_refl))).
Defined.



(** The executable package keeps the setter's law, and the frame it builds
    from [my_wine] carries the eleven names. *)
Lemma column_names_assigned_witness :
  (forall f names w w',
     graph Ref.h2o (set_columns f names) w (Returned w' tt) ->
     Ref.columns w' f = names) /\
  Ref.columns (backend (final_state (snd (Ref.build my_wine Ref.ready)))) 0 =
  ["fixed acidity"; "volatile acidity"; "citric acid"; "residual sugar";
   "chlorides"; "free sulfur dioxide"; "total sulfur dioxide";
   "density"; "pH"; "sulphates"; "alcohol"].
Proof.
  split; [exact Ref_setter_law |].
  refine (proj1 (proj1 (column_names_assigned (graph Ref.h2o) Ref.columns
                          Ref_setter_law)
                   my_wine (Ref.start (Ref.connect Ref.ready))
                   (fst (Ref.build my_wine Ref.ready))
                   (final_state (snd (Ref.build my_wine Ref.ready))) 0 _)).
  exact (build_exec my_wine Ref.ready).
Defined.

(** The executable package checks arity, and the empty row makes the input
    builder end with the setter's exception. *)
Lemma wrong_row_length_fails_witness :
  arity_checked (graph Ref.h2o) Ref.ncol /\
  List.length (@nil pynum) <> 11 /\
  exec (graph Ref.h2o) (input_builder [])
    (Ref.start (Ref.connect Ref.ready))
    (fst (Ref.build [] Ref.ready)) (snd (Ref.build [] Ref.ready)) /\
  exists s' e, snd (Ref.build [] Ref.ready) = Uncaught s' e.
Proof.
  assert (Hlen : List.length (@nil pynum) <> 11) by (simpl; lia).
  split; [exact Ref_arity_checked |]. split; [exact Hlen |].
  split; [exact (build_exec [] Ref.ready) |].
  destruct (wrong_row_length_fails Ref_arity_checked Hlen
              (build_exec [] Ref.ready))
    as ((s' & e & Ho & _) & _).
  exists s', e. exact Ho.
Defined.

(** On two machines with the same artifact at the path, whatever else lies
    beside it, the script is returned the same prediction. *)
Lemma same_artifact_same_prediction_witness :
  functional_package (graph Ref.h2o) Ref.observed /\
  file Ref.observed (backend (Ref.start Ref.ready)) model_path =
  file Ref.observed (backend (Ref.start Ref.elsewhere)) model_path /\
  exec (graph Ref.h2o) exec_model (Ref.start Ref.ready)
    (fst (Ref.whole_run Ref.ready)) (snd (Ref.whole_run Ref.ready)) /\
  exec (graph Ref.h2o) exec_model (Ref.start Ref.elsewhere)
    (fst (Ref.whole_run Ref.elsewhere)) (snd (Ref.whole_run Ref.elsewhere)) /\
  (forall sw1 text1 sw2 text2,
     In (Wrote sw1 text1) (fst (Ref.whole_run Ref.ready)) ->
     In (Wrote sw2 text2) (fst (Ref.whole_run Ref.elsewhere)) ->
     text1 = text2).
Proof.
  assert (Hfile : file Ref.observed (backend (Ref.start Ref.ready)) model_path =
                  file Ref.observed (backend (Ref.start Ref.elsewhere)) model_path)
    by reflexivity.
  split; [exact Ref_functional_package |]. split; [exact Hfile |].
  split; [exact (whole_run_exec Ref.ready) |].
  split; [exact (whole_run_exec Ref.elsewhere) |].
  exact (proj2 (same_artifact_same_prediction Ref_functional_package Hfile
                  (whole_run_exec Ref.ready) (whole_run_exec Ref.elsewhere))).
Defined.

(** Two machines that differ in what lies around the artifact: the script
    is handed back the same objects on both and asks for the same things. *)
Lemma independent_of_surroundings_witness :
  exec (graph Ref.h2o) exec_model (Ref.start Ref.ready)
    (fst (Ref.whole_run Ref.ready)) (snd (Ref.whole_run Ref.ready)) /\
  exec (graph Ref.h2o) exec_model (Ref.start Ref.elsewhere)
    (fst (Ref.whole_run Ref.elsewhere)) (snd (Ref.whole_run Ref.elsewhere)) /\
  map (@answer_of _ _ _ _) (fst (Ref.whole_run Ref.ready)) =
  map (@answer_of _ _ _ _) (fst (Ref.whole_run Ref.elsewhere)) /\
  map (@request_of _ _ _ _) (fst (Ref.whole_run Ref.ready)) =
  map (@request_of _ _ _ _) (fst (Ref.whole_run Ref.elsewhere)).
Proof.
  assert (Hans : map (@answer_of _ _ _ _) (fst (Ref.whole_run Ref.ready)) =
                 map (@answer_of _ _ _ _) (fst (Ref.whole_run Ref.elsewhere)))
    by (vm_compute; reflexivity).
  split; [exact (whole_run_exec Ref.ready) |].
  split; [exact (whole_run_exec Ref.elsewhere) |].
  split; [exact Hans |].
  exact (proj1 (proj2
    (independent_of_surroundings (whole_run_exec Ref.ready)
       (whole_run_exec Ref.elsewhere))) Hans).
Defined.

(** ** Further facts about the script *)

(** Takes [In x t] for a variable [x] and a short explicit [t] apart. *)
Ltac pick H :=
  cbn [In] in H;
  repeat match goal with
    | H : _ \/ _ |- _ => destruct H
    | H : False |- _ => destruct H
    end;
  subst.

Section Script_more.

Variables (World Model Frame Exn : Type).
Variable lib : library World Model Frame Exn.

Abbreviation state := (state World).
Abbreviation trace := (trace World Model Frame Exn).
Abbreviation outcome := (outcome World Exn).

(** X1. A failure at any call site, not only at [load_model], is where the
    run stops: if some step of a run raised, the sites reached are exactly
    those up to and including that step's, no step belongs to a later site,
    the run ends with that exception in the state the failed call left,
    and the script's [print] has written nothing. *)
Theorem failure_containment (s : state) (t : trace) (o : outcome unit) :
  exec lib exec_model s t o ->
  forall x e,
    In x t -> raised x = Some e ->
    map (@site_of _ _ _ _) t = firstn (S (rank (site_of x))) pipeline /\
    (forall y, In y t -> rank (site_of y) <= rank (site_of x)) /\
    o = Uncaught (after x) e /\
    occurrences at_stdout t = 0.
Proof.
  intros H x e Hin Hx.
  run_cases H; subst; pick Hin; cbn in Hx; try discriminate;
    inversion Hx; subst;
    (split; [reflexivity |]);
    (split; [intros y Hy; pick Hy; cbn; lia |]);
    repeat split.
Qed.


(** X3. The script passes on the objects it was given and no others, in
    every run, complete or not: the frame whose columns are assigned is the
    one [H2OFrame] returned for [[my_wine]]; the model that [predict] is
    called on is the one [load_model] returned for the hardcoded path, and
    its argument is that same frame; and [str] is called on what [predict]
    returned. *)
Theorem handles_come_from_h2o (s : state) (t : trace) (o : outcome unit) :
  exec lib exec_model s t o ->
  (forall s1 f names r,
     In (Called s1 (set_columns f names) r) t ->
     exists s0 w,
       In (Called s0 (h2o_H2OFrame [my_wine]) (Ok w (PyFrame f))) t) /\
  (forall s1 m f r,
     In (Called s1 (predict m f) r) t ->
     (exists s0 w,
        In (Called s0 (h2o_load_model model_path) (Ok w (PyModel m))) t) /\
     (exists s0 w,
        In (Called s0 (h2o_H2OFrame [my_wine]) (Ok w (PyFrame f))) t)) /\
  (forall s1 p r,
     In (Called s1 (str p) r) t ->
     exists s0 m f w,
       In (Called s0 (predict m f) (Ok w (PyFrame p))) t).
Proof.
  intros H. split; [| split].
  - intros s1 f names r Hin.
    run_cases H; subst; cbn [In] in Hin; members;
      do 2 eexists; cbn [In]; eauto 8.
  - intros s1 m f r Hin.
    run_cases H; subst; cbn [In] in Hin; members;
      (split; do 2 eexists; cbn [In]; eauto 8).
  - intros s1 p r Hin.
    run_cases H; subst; cbn [In] in Hin; members;
      do 4 eexists; cbn [In]; eauto 10.
Qed.

(** X4. Lines 8-12 act as a unit inside the script.  A run in which
    [load_model] returned contains, as a block of consecutive steps, a run of
    the input builder on [my_wine] started in the state [load_model] left;
    if that run ended with an exception, so did the script, with the same
    exception in the same state; and if the script went on to call
    [predict], the builder had completed, in the state [predict] starts
    from, with the frame [predict] is given. *)
Theorem input_builder_runs_inside (s : state) (t : trace) (o : outcome unit) :
  exec lib exec_model s t o ->
  forall s3 w3 model,
    In (Called s3 (h2o_load_model model_path) (Ok w3 (PyModel model))) t ->
    exists tb ob,
      exec lib (input_builder my_wine) (with_backend s3 w3) tb ob /\
      (exists pre post, t = pre ++ tb ++ post) /\
      (forall s' e, ob = Uncaught s' e -> o = Uncaught s' e) /\
      (forall s_p m f r,
         In (Called s_p (predict m f) r) t -> ob = Done s_p f).
Proof.
  intros H s3 w3 model Hin.
  run_cases H; subst; cbn [In] in Hin; members.
  - (* the run reached the end *)
    eexists [_; _], (Done _ _). split; [| split; [| split]].
    + cbn [exec input_builder].
      eexists (Returned _ _); split; [eassumption |].
      eexists; split; [reflexivity |].
      eexists (Returned _ tt); split; [eassumption |].
      eexists; split; [reflexivity |]. split; reflexivity.
    + eexists [_; _; _], [_; _; _]. reflexivity.
    + intros ? ? Hob. discriminate Hob.
    + intros s_p m f r Hp. cbn [In] in Hp. members. reflexivity.
  - (* str raised *)
    eexists [_; _], (Done _ _). split; [| split; [| split]].
    + cbn [exec input_builder].
      eexists (Returned _ _); split; [eassumption |].
      eexists; split; [reflexivity |].
      eexists (Returned _ tt); split; [eassumption |].
      eexists; split; [reflexivity |]. split; reflexivity.
    + eexists [_; _; _], [_; _]. reflexivity.
    + intros ? ? Hob. discriminate Hob.
    + intros s_p m f r Hp. cbn [In] in Hp. members. reflexivity.
  - (* predict raised *)
    eexists [_; _], (Done _ _). split; [| split; [| split]].
    + cbn [exec input_builder].
      eexists (Returned _ _); split; [eassumption |].
      eexists; split; [reflexivity |].
      eexists (Returned _ tt); split; [eassumption |].
      eexists; split; [reflexivity |]. split; reflexivity.
    + eexists [_; _; _], [_]. reflexivity.
    + intros ? ? Hob. discriminate Hob.
    + intros s_p m f r Hp. cbn [In] in Hp. members. reflexivity.
  - (* the column assignment raised *)
    eexists [_; _], (Uncaught _ _). split; [| split; [| split]].
    + cbn [exec input_builder].
      eexists (Returned _ _); split; [eassumption |].
      eexists; split; [reflexivity |].
      eexists (Raised _ _); split; [eassumption |]. split; reflexivity.
    + eexists [_; _; _], []. reflexivity.
    + intros ? ? Hob. inversion Hob; subst. reflexivity.
    + intros s_p m f r Hp. cbn [In] in Hp. members.
  - (* H2OFrame raised *)
    eexists [_], (Uncaught _ _). split; [| split; [| split]].
    + cbn [exec input_builder].
      eexists (Raised _ _); split; [eassumption |]. split; reflexivity.
    + eexists [_; _; _], []. reflexivity.
    + intros ? ? Hob. inversion Hob; subst. reflexivity.
    + intros s_p m f r Hp. cbn [In] in Hp. members.
Qed.

End Script_more.

(** When no cluster can be started the run stops at [init], the second
    site, and [print] is never reached. *)
Lemma failure_containment_witness :
  exec (graph Ref.h2o) exec_model (Ref.start Ref.unreachable)
    (fst (Ref.whole_run Ref.unreachable)) (snd (Ref.whole_run Ref.unreachable)) /\
  In (Called (Ref.start Ref.unreachable) h2o_init
        (Exc Ref.unreachable "H2OStartupError"))
     (fst (Ref.whole_run Ref.unreachable)) /\
  map (@site_of _ _ _ _) (fst (Ref.whole_run Ref.unreachable)) =
    [at_import; at_init] /\
  occurrences at_stdout (fst (Ref.whole_run Ref.unreachable)) = 0.
Proof.
  assert (Hin : In (Called (Ref.start Ref.unreachable) h2o_init
                      (Exc Ref.unreachable "H2OStartupError"))
                   (fst (Ref.whole_run Ref.unreachable)))
    by (vm_compute; right; left; reflexivity).
  split; [exact (whole_run_exec Ref.unreachable) |]. split; [exact Hin |].
  destruct (failure_containment (whole_run_exec Ref.unreachable) _ Hin eq_refl)
    as (Hsites & _ & _ & Hout).
  split; [exact Hsites | exact Hout].
Defined.


(** On the ready machine [str] is called on what [predict] returned. *)
Lemma handles_come_from_h2o_witness :
  exec (graph Ref.h2o) exec_model (Ref.start Ref.ready)
    (fst (Ref.whole_run Ref.ready)) (snd (Ref.whole_run Ref.ready)) /\
  (forall s1 p r,
     In (Called s1 (str p) r) (fst (Ref.whole_run Ref.ready)) ->
     exists s0 m f w,
       In (Called s0 (predict m f) (Ok w (PyFrame p)))
          (fst (Ref.whole_run Ref.ready))).
Proof.
  split; [exact (whole_run_exec Ref.ready) |].
  exact (proj2 (proj2 (handles_come_from_h2o (whole_run_exec Ref.ready)))).
Defined.

(** On the ready machine the script's run contains a run of the input
    builder, started where [load_model] stopped. *)
Lemma input_builder_runs_inside_witness :
  exec (graph Ref.h2o) exec_model (Ref.start Ref.ready)
    (fst (Ref.whole_run Ref.ready)) (snd (Ref.whole_run Ref.ready)) /\
  In (Called (Ref.start (Ref.connect Ref.ready)) (h2o_load_model model_path)
        (Ok (Ref.connect Ref.ready) (PyModel Ref.wine_model)))
     (fst (Ref.whole_run Ref.ready)) /\
  exists tb ob,
    exec (graph Ref.h2o) (input_builder my_wine)
      (with_backend (Ref.start (Ref.connect Ref.ready)) (Ref.connect Ref.ready))
      tb ob /\
    exists pre post, fst (Ref.whole_run Ref.ready) = pre ++ tb ++ post.
Proof.
  assert (Hin : In (Called (Ref.start (Ref.connect Ref.ready))
                      (h2o_load_model model_path)
                      (Ok (Ref.connect Ref.ready) (PyModel Ref.wine_model)))
                   (fst (Ref.whole_run Ref.ready)))
    by (vm_compute; right; right; left; reflexivity).
  split; [exact (whole_run_exec Ref.ready) |]. split; [exact Hin |].
  destruct (input_builder_runs_inside (whole_run_exec Ref.ready) _ _ _ Hin)
    as (tb & ob & Hb & Hseg & _).
  exists tb, ob. split; [exact Hb | exact Hseg].
Defined.
